(** * The Observer pattern of [DesignPatterns/BehavioralPatterns/observer.py]

    A shallow embedding of the publisher, the two concrete subscribers and the
    client script, followed by the properties of the notify/subscribe
    mechanism.

    Python objects are modelled as follows.
    - A subscriber object is its class together with its object identity;
      the classes define no [__eq__], so [==] on subscribers is identity.
    - The script owns one publisher; its two attributes are the fields of a
      record kept in the program state.
    - [print] and the method calls that the properties speak about
      ([update], [notify]) are recorded as events, in the order they happen.
    - [random.randrange] draws from the generator kept in the program state.
    - A statement either returns normally or raises; what was done before a
      [raise] stays done. *)

From Stdlib Require Import List ZArith String Ascii Bool Lia DecimalString.
Import ListNotations.

Local Open Scope Z_scope.
Local Open Scope list_scope.

(** ** Subscribers *)

(** [class SubscriberA(Subscriber)] and [class SubscriberB(Subscriber)], the
    two classes that implement the abstract [Subscriber]: an object of either
    class, with the identity Python gives it. *)
Inductive Subscriber : Type :=
| SubscriberA (id : nat)
| SubscriberB (id : nat).

Definition Subscriber_eq_dec (x y : Subscriber) : {x = y} + {x <> y}.
Proof. decide equality; apply Nat.eq_dec. Defined.

(** ** The publisher object *)

Record ConcretePublisher : Type := mkConcretePublisher {
  _subscribers : list Subscriber;
  _new_products : Z
}.

(** ** Observable events *)

Inductive Event : Type :=
| Print (line : string)            (* [print(line)] *)
| CallUpdate (s : Subscriber)      (* entry of [s.update(publisher)] *)
| CallNotify.                      (* entry of [publisher.notify()] *)

Definition Event_eq_dec (x y : Event) : {x = y} + {x <> y}.
Proof.
  decide equality; [apply string_dec | apply Subscriber_eq_dec].
Defined.

(** The subscribers whose [update] was entered, in call order. *)
Fixpoint updates (evs : list Event) : list Subscriber :=
  match evs with
  | [] => []
  | CallUpdate s :: evs' => s :: updates evs'
  | _ :: evs' => updates evs'
  end.

(** The lines written to standard output, in order. *)
Fixpoint stdout (evs : list Event) : list string :=
  match evs with
  | [] => []
  | Print line :: evs' => line :: stdout evs'
  | _ :: evs' => stdout evs'
  end.

(** How many times [notify] was entered. *)
Definition notifications (evs : list Event) : nat :=
  count_occ Event_eq_dec evs CallNotify.

(** ** The random source *)

(** [random.Random._randbelow(n)]: an integer in [[0, n)] and the generator's
    next state. *)
Class RandomSource (G : Type) : Type := {
  randbelow : Z -> G -> Z * G;
  randbelow_range : forall n g, 0 < n -> 0 <= fst (randbelow n g) < n
}.

(** A linear congruential generator, to run the script on. *)
Definition lcg_randbelow (n : Z) (g : Z) : Z * Z :=
  (g mod n, (1103515245 * g + 12345) mod 2147483648).

#[export] Instance lcg : RandomSource Z := {|
  randbelow := lcg_randbelow;
  randbelow_range := fun n g H => Z.mod_pos_bound g n H
|}.

(** ** Program state and the monad of statements *)

Inductive Exception : Type :=
| ValueError (msg : string).

Inductive Outcome (A : Type) : Type :=
| Normal (a : A)
| Raised (e : Exception)
| OutOfFuel.
Arguments Normal {A} a.
Arguments Raised {A} e.
Arguments OutOfFuel {A}.

Section Observer.

Context {G : Type} {RS : RandomSource G}.

Record State : Type := mkState {
  publisher : ConcretePublisher;
  random : G
}.

Record Run (A : Type) : Type := mkRun {
  outcome : Outcome A;
  final : State;
  events : list Event
}.
Arguments mkRun {A}.
Arguments outcome {A}.
Arguments final {A}.
Arguments events {A}.

Definition Py (A : Type) : Type := State -> Run A.

Definition ret {A} (a : A) : Py A :=
  fun st => mkRun (Normal a) st [].

Definition bind {A B} (m : Py A) (k : A -> Py B) : Py B :=
  fun st =>
    let r := m st in
    match outcome r with
    | Normal a =>
        let r' := k a (final r) in
        mkRun (outcome r') (final r') (events r ++ events r')
    | Raised e => mkRun (Raised e) (final r) (events r)
    | OutOfFuel => mkRun OutOfFuel (final r) (events r)
    end.

Definition raise {A} (e : Exception) : Py A :=
  fun st => mkRun (Raised e) st [].

Definition emit (e : Event) : Py unit :=
  fun st => mkRun (Normal tt) st [e].

Definition print (line : string) : Py unit := emit (Print line).

Definition get_publisher : Py ConcretePublisher :=
  fun st => mkRun (Normal (publisher st)) st [].

Definition set_subscribers (l : list Subscriber) : Py unit :=
  fun st =>
    mkRun (Normal tt)
      (mkState (mkConcretePublisher l (_new_products (publisher st)))
               (random st)) [].

Definition set_new_products (n : Z) : Py unit :=
  fun st =>
    mkRun (Normal tt)
      (mkState (mkConcretePublisher (_subscribers (publisher st)) n)
               (random st)) [].

Notation "x <- m ;; k" := (bind m (fun x => k))
  (at level 61, m at next level, right associativity).
Notation "m ;; k" := (bind m (fun _ => k))
  (at level 61, right associativity).

(** ** Library functions the script calls *)

(** [random.randrange(start, stop)]. *)
Definition randrange (start stop : Z) : Py Z :=
  fun st =>
    let width := stop - start in
    if 0 <? width then
      let (r, g) := randbelow width (random st) in
      mkRun (Normal (start + r)) (mkState (publisher st) g) []
    else
      mkRun (Raised (ValueError "empty range for randrange()")) st [].

(** [list.remove(x)] on a copy: the list without the first item equal to
    [x], or [None] where Python raises [ValueError]. *)
Fixpoint list_remove (x : Subscriber) (l : list Subscriber)
  : option (list Subscriber) :=
  match l with
  | [] => None
  | y :: l' =>
      if Subscriber_eq_dec y x then Some l'
      else option_map (cons y) (list_remove x l')
  end.

(** [str(n)] for an [int]. *)
Definition str (n : Z) : string := NilZero.string_of_int (Z.to_int n).

(** ** The concrete subscribers *)

(** The line both subscribers print. *)
Definition action_line : string := "SubscriberA: Action Taken".

(** [SubscriberA.update] *)
Definition SubscriberA_update : Py unit :=
  p <- get_publisher ;;
  if _new_products p >? 0 then print "SubscriberA: Action Taken"
  else ret tt.

(** [SubscriberB.update] *)
Definition SubscriberB_update : Py unit :=
  p <- get_publisher ;;
  if _new_products p >? 2 then print "SubscriberA: Action Taken"
  else ret tt.

(** [subscriber.update(publisher)]: the call is dispatched on the class of
    the object. *)
Definition update (subscriber : Subscriber) : Py unit :=
  emit (CallUpdate subscriber) ;;
  match subscriber with
  | SubscriberA _ => SubscriberA_update
  | SubscriberB _ => SubscriberB_update
  end.

(** ** ConcretePublisher *)

(** [ConcretePublisher.__init__] *)
Definition __init__ : Py unit :=
  fun st => mkRun (Normal tt) (mkState (mkConcretePublisher [] 0) (random st)) [].

(** [ConcretePublisher.add_subscriber] *)
Definition add_subscriber (subscriber : Subscriber) : Py unit :=
  print "Publisher: Adding subscriber !" ;;
  p <- get_publisher ;;
  set_subscribers (_subscribers p ++ [subscriber]).

(** [ConcretePublisher.remove_subscriber] *)
Definition remove_subscriber (subscriber : Subscriber) : Py unit :=
  print "Publisher: Removing subscriber !" ;;
  p <- get_publisher ;;
  match list_remove subscriber (_subscribers p) with
  | Some l => set_subscribers l
  | None => raise (ValueError "list.remove(x): x not in list")
  end.

(** The [for] loop of [notify]. The list iterator keeps an index into the
    list object itself: each round reads [self._subscribers] as it is then,
    and the loop ends when the index is past its end. *)
Fixpoint notify_loop (fuel : nat) (i : nat) : Py unit :=
  match fuel with
  | O => fun st => mkRun OutOfFuel st []
  | S fuel' =>
      p <- get_publisher ;;
      match nth_error (_subscribers p) i with
      | None => ret tt
      | Some subscriber => update subscriber ;; notify_loop fuel' (S i)
      end
  end.

(** [ConcretePublisher.notify]. The loop gets one round per subscriber and
    one for the round that finds the end of the list; [notify_loop_fuel]
    shows that any larger amount gives the same run. *)
Definition notify : Py unit :=
  emit CallNotify ;;
  p <- get_publisher ;;
  notify_loop (S (List.length (_subscribers p))) 0.

(** [ConcretePublisher.business_logic] *)
Definition business_logic : Py unit :=
  print (String (ascii_of_nat 10) "Publisher: Checking Inventory for new products!") ;;
  n <- randrange 0 10 ;;
  set_new_products n ;;
  p <- get_publisher ;;
  print ("Publisher: My new products count has just changed to: "
           ++ str (_new_products p))%string ;;
  notify.

(** ** The client code *)

Definition sub_a : Subscriber := SubscriberA 1.
Definition sub_b : Subscriber := SubscriberB 2.

Definition main : Py unit :=
  __init__ ;;
  add_subscriber sub_a ;;
  add_subscriber sub_b ;;
  business_logic ;;
  business_logic ;;
  business_logic ;;
  remove_subscriber sub_a ;;
  business_logic ;;
  business_logic.

(** The client code up to and including the [remove_subscriber] call. *)
Definition main_until_removal : Py unit :=
  __init__ ;;
  add_subscriber sub_a ;;
  add_subscriber sub_b ;;
  business_logic ;;
  business_logic ;;
  business_logic ;;
  remove_subscriber sub_a.

End Observer.

Arguments State G : clear implicits.
Arguments Run G A : clear implicits.
Arguments Py G A : clear implicits.
Arguments mkState {G} publisher random.
Arguments publisher {G} s.
Arguments random {G} s.
Arguments mkRun {G A} outcome final events.
Arguments outcome {G A} r.
Arguments final {G A} r.
Arguments events {G A} r.

(** Whether [subscriber.update(publisher)], called in state [st], takes its
    visible action: whether it writes anything to standard output. *)
Definition action_taken {G} (subscriber : Subscriber) (st : State G) : bool :=
  match stdout (events (update subscriber st)) with
  | [] => false
  | _ :: _ => true
  end.

(** A sequence of [add_subscriber] calls, one per item of [l], in order. *)
Fixpoint add_subscribers {G} (l : list Subscriber) : Py G unit :=
  match l with
  | [] => ret tt
  | s :: l' => bind (add_subscriber s) (fun _ => add_subscribers l')
  end.

(** A state to evaluate the definitions on: a publisher with the given
    subscribers and count, and the generator [lcg] at [seed]. *)
Definition sample (l : list Subscriber) (n : Z) (seed : Z) : State Z :=
  mkState (mkConcretePublisher l n) seed.

(** The events after the entry of one [update] call, as a function of the
    publisher's count; [update_run] shows that [update] produces them. *)
Definition reaction (s : Subscriber) (n : Z) : list Event :=
  match s with
  | SubscriberA _ => if n >? 0 then [Print action_line] else []
  | SubscriberB _ => if n >? 2 then [Print action_line] else []
  end.

(** The events of one [update] call after the other over the list [l]. *)
Definition sweep (l : list Subscriber) (n : Z) : list Event :=
  flat_map (fun s => CallUpdate s :: reaction s n) l.

(** The text on standard output: every [print] writes its argument and a
    newline. *)
Fixpoint printed (evs : list Event) : string :=
  match evs with
  | [] => EmptyString
  | Print line :: evs' =>
      (line ++ String (ascii_of_nat 10) (printed evs'))%string
  | _ :: evs' => printed evs'
  end.

(** The states a client can bring the publisher to: a new publisher, then
    any sequence of calls of its methods. A [remove_subscriber] that raised
    counts too, for a client that catches the error and goes on. *)
Inductive reachable {G} {RS : RandomSource G} : State G -> Prop :=
| reach_init st : reachable (final (__init__ st))
| reach_add_subscriber st s :
    reachable st -> reachable (final (add_subscriber s st))
| reach_remove_subscriber st s :
    reachable st -> reachable (final (remove_subscriber s st))
| reach_notify st :
    reachable st -> reachable (final (notify st))
| reach_business_logic st :
    reachable st -> reachable (final (business_logic st)).

(** * Properties *)

Section Properties.

Context {G : Type}.

Implicit Types (st : State G) (s : Subscriber) (l : list Subscriber).

(** ** Sequencing *)

Lemma bind_Normal {A B} (m : Py G A) (k : A -> Py G B) st a st' evs :
  m st = mkRun (Normal a) st' evs ->
  bind m k st =
  mkRun (outcome (k a st')) (final (k a st')) (evs ++ events (k a st')).
Proof. intros H. unfold bind. rewrite H. reflexivity. Qed.

Lemma bind_returns {A B} (m : Py G A) (k : A -> Py G B) st a :
  outcome (m st) = Normal a ->
  bind m k st =
  mkRun (outcome (k a (final (m st)))) (final (k a (final (m st))))
        (events (m st) ++ events (k a (final (m st)))).
Proof. intros H. unfold bind. rewrite H. reflexivity. Qed.

(** ** Events *)

Lemma updates_app (e1 e2 : list Event) :
  updates (e1 ++ e2) = updates e1 ++ updates e2.
Proof.
  induction e1 as [|[line|s|] e1 IH]; simpl; rewrite ?IH; reflexivity.
Qed.

Lemma notifications_app (e1 e2 : list Event) :
  notifications (e1 ++ e2) = (notifications e1 + notifications e2)%nat.
Proof. apply count_occ_app. Qed.

(** ** The subscribers' [update] *)

Lemma update_run s st :
  update s st =
  mkRun (Normal tt) st
        (CallUpdate s :: reaction s (_new_products (publisher st))).
Proof.
  destruct s as [i|i]; unfold update, bind; simpl;
    unfold SubscriberA_update, SubscriberB_update, bind; simpl.
  - destruct (_new_products (publisher st) >? 0); reflexivity.
  - destruct (_new_products (publisher st) >? 2); reflexivity.
Qed.

Lemma updates_reaction s n : updates (reaction s n) = [].
Proof.
  destruct s; simpl; [destruct (n >? 0) | destruct (n >? 2)]; reflexivity.
Qed.

Lemma notifications_reaction s n : notifications (reaction s n) = 0%nat.
Proof.
  destruct s; simpl; [destruct (n >? 0) | destruct (n >? 2)]; reflexivity.
Qed.

Lemma updates_sweep l n : updates (sweep l n) = l.
Proof.
  induction l as [|s l IH]; simpl; [reflexivity|].
  rewrite updates_app, updates_reaction, IH. reflexivity.
Qed.

Lemma notifications_sweep l n : notifications (sweep l n) = 0%nat.
Proof.
  induction l as [|s l IH]; simpl; [reflexivity|].
  change (notifications (reaction s n ++ sweep l n) = 0%nat).
  rewrite notifications_app, notifications_reaction, IH. reflexivity.
Qed.

(** ** The loop of [notify] *)

Lemma skipn_nth_error_None {A} (l : list A) i :
  nth_error l i = None -> skipn i l = [].
Proof.
  intros H. apply nth_error_None in H. now apply skipn_all2.
Qed.

Lemma skipn_nth_error_Some {A} (l : list A) i x :
  nth_error l i = Some x -> skipn i l = x :: skipn (S i) l.
Proof.
  revert i. induction l as [|y l IH]; intros [|i] H; simpl in *;
    try discriminate.
  - now inversion H.
  - now apply IH.
Qed.

(** With more fuel than subscribers left, the loop returns, leaves the state
    as it is, and has swept the subscribers from index [i] on. *)
Lemma notify_loop_run fuel : forall i st,
  (List.length (skipn i (_subscribers (publisher st))) < fuel)%nat ->
  notify_loop fuel i st =
  mkRun (Normal tt) st
        (sweep (skipn i (_subscribers (publisher st)))
               (_new_products (publisher st))).
Proof.
  induction fuel as [|fuel IH]; intros i st Hfuel; [lia|].
  cbn [notify_loop]. unfold bind at 1. cbn [get_publisher outcome final events].
  destruct (nth_error (_subscribers (publisher st)) i) as [s|] eqn:Hi.
  - rewrite (skipn_nth_error_Some _ _ _ Hi) in *. cbn [List.length] in Hfuel.
    unfold bind. rewrite update_run. cbn [outcome final events].
    rewrite IH by lia. reflexivity.
  - rewrite (skipn_nth_error_None _ _ Hi). reflexivity.
Qed.

Lemma notify_run st :
  notify st =
  mkRun (Normal tt) st
        (CallNotify ::
         sweep (_subscribers (publisher st)) (_new_products (publisher st))).
Proof.
  unfold notify, bind. cbn [emit get_publisher outcome final events].
  rewrite notify_loop_run by (simpl; lia). reflexivity.
Qed.

(** ** [list.remove] *)

Lemma list_remove_None s l : list_remove s l = None <-> ~ In s l.
Proof.
  induction l as [|y l IH]; simpl.
  - tauto.
  - destruct (Subscriber_eq_dec y s) as [->|Hne].
    + split; [discriminate | intros H; exfalso; apply H; now left].
    + destruct (list_remove s l) as [l'|]; simpl.
      * split; [discriminate|]. intros H. exfalso. apply H. right.
        destruct (in_dec Subscriber_eq_dec s l) as [Hin|Hnin]; [exact Hin|].
        apply IH in Hnin. discriminate.
      * split; [|reflexivity]. intros _ [Heq|Hin]; [congruence|].
        now apply IH.
Qed.

(** A successful removal takes out the first item equal to [s] and nothing
    else. *)
Lemma list_remove_Some s l l' :
  list_remove s l = Some l' <->
  exists l1 l2, l = l1 ++ s :: l2 /\ ~ In s l1 /\ l' = l1 ++ l2.
Proof.
  revert l'. induction l as [|y l IH]; intros l'; simpl.
  - split; [discriminate|]. intros (l1 & l2 & H & _). now destruct l1.
  - destruct (Subscriber_eq_dec y s) as [->|Hne].
    + split.
      * intros [= <-]. exists [], l. simpl. tauto.
      * intros (l1 & l2 & H & Hnin & ->). destruct l1 as [|z l1].
        -- simpl in H. now inversion H.
        -- simpl in H. inversion H; subst. exfalso. apply Hnin. now left.
    + split.
      * destruct (list_remove s l) as [l0|] eqn:Hl; [|discriminate].
        intros [= <-]. destruct (proj1 (IH l0) eq_refl) as (l1 & l2 & -> & Hn & ->).
        exists (y :: l1), l2. simpl. repeat split; trivial.
        intros [Heq|Hin]; [congruence | contradiction].
      * intros (l1 & l2 & H & Hnin & ->). destruct l1 as [|z l1].
        -- simpl in H. inversion H. congruence.
        -- simpl in H. inversion H; subst.
           assert (Hr : list_remove s (l1 ++ s :: l2) = Some (l1 ++ l2)).
           { apply IH. exists l1, l2. repeat split; trivial.
             intros Hin. apply Hnin. now right. }
           rewrite Hr. reflexivity.
Qed.

Lemma list_remove_In s l : In s l -> exists l', list_remove s l = Some l'.
Proof.
  intros Hin. destruct (list_remove s l) as [l'|] eqn:H; [now exists l'|].
  apply list_remove_None in H. contradiction.
Qed.

Lemma list_remove_count s l l' x :
  list_remove s l = Some l' ->
  count_occ Subscriber_eq_dec l x =
  (count_occ Subscriber_eq_dec l' x + if Subscriber_eq_dec s x then 1 else 0)%nat.
Proof.
  intros H. apply list_remove_Some in H. destruct H as (l1 & l2 & -> & _ & ->).
  rewrite !count_occ_app. simpl.
  destruct (Subscriber_eq_dec s x); lia.
Qed.

(** ** The publisher's methods *)

Lemma add_subscriber_run s st :
  add_subscriber s st =
  mkRun (Normal tt)
        (mkState (mkConcretePublisher (_subscribers (publisher st) ++ [s])
                                      (_new_products (publisher st)))
                 (random st))
        [Print "Publisher: Adding subscriber !"].
Proof. reflexivity. Qed.

Lemma remove_subscriber_present s st l' :
  list_remove s (_subscribers (publisher st)) = Some l' ->
  remove_subscriber s st =
  mkRun (Normal tt)
        (mkState (mkConcretePublisher l' (_new_products (publisher st)))
                 (random st))
        [Print "Publisher: Removing subscriber !"].
Proof.
  intros H. unfold remove_subscriber, bind.
  cbn [print emit get_publisher outcome final events]. rewrite H. reflexivity.
Qed.

Lemma remove_subscriber_absent s st :
  ~ In s (_subscribers (publisher st)) ->
  remove_subscriber s st =
  mkRun (Raised (ValueError "list.remove(x): x not in list")) st
        [Print "Publisher: Removing subscriber !"].
Proof.
  intros H. apply list_remove_None in H. unfold remove_subscriber, bind.
  cbn [print emit get_publisher outcome final events]. rewrite H. reflexivity.
Qed.

Lemma add_subscribers_run l : forall st,
  add_subscribers l st =
  mkRun (Normal tt)
        (mkState (mkConcretePublisher (_subscribers (publisher st) ++ l)
                                      (_new_products (publisher st)))
                 (random st))
        (map (fun _ => Print "Publisher: Adding subscriber !") l).
Proof.
  induction l as [|s l IH]; intros st.
  - simpl. unfold ret. rewrite app_nil_r. now destruct st as [[? ?] ?].
  - cbn [add_subscribers]. unfold bind. rewrite add_subscriber_run.
    cbn [outcome final events]. rewrite IH. cbn [publisher random _subscribers _new_products].
    rewrite <- app_assoc. reflexivity.
Qed.

(** ** Subscribers *)

(** C2. [SubscriberA.update] takes its visible action exactly when the
    publisher's count is above 0 and [SubscriberB.update] exactly when it is
    above 2; so whenever SubscriberB's action fires, SubscriberA's does. *)
Theorem subscriber_actions_fire_on_thresholds st i j :
  (action_taken (SubscriberA i) st = true <->
   _new_products (publisher st) > 0) /\
  (action_taken (SubscriberB j) st = true <->
   _new_products (publisher st) > 2) /\
  (action_taken (SubscriberB j) st = true ->
   action_taken (SubscriberA i) st = true).
Proof.
  unfold action_taken. rewrite !update_run. cbn [events stdout reaction].
  destruct (Z.gtb_spec (_new_products (publisher st)) 0);
    destruct (Z.gtb_spec (_new_products (publisher st)) 2);
    cbn [stdout action_line]; repeat split; intros; try lia; try discriminate.
Qed.

(** C7. Calling [update] on a SubscriberA or a SubscriberB returns without
    raising and leaves the publisher's count and subscriber sequence as they
    were. *)
Theorem update_leaves_publisher_unchanged st s :
  outcome (update s st) = Normal tt /\
  _new_products (publisher (final (update s st))) =
    _new_products (publisher st) /\
  _subscribers (publisher (final (update s st))) =
    _subscribers (publisher st).
Proof. rewrite update_run. repeat split. Qed.

(** C9. When SubscriberB's action fires, the line it writes is
    "SubscriberA: Action Taken", the very line SubscriberA writes in the
    same state. *)
Theorem subscriberB_prints_subscriberA_line st i j :
  action_taken (SubscriberB j) st = true ->
  stdout (events (update (SubscriberB j) st)) =
    ["SubscriberA: Action Taken"%string] /\
  stdout (events (update (SubscriberB j) st)) =
    stdout (events (update (SubscriberA i) st)).
Proof.
  unfold action_taken. rewrite !update_run. cbn [events stdout reaction].
  destruct (Z.gtb_spec (_new_products (publisher st)) 2) as [H2|H2];
    cbn [stdout]; [intros _|discriminate].
  destruct (Z.gtb_spec (_new_products (publisher st)) 0); [|lia].
  split; reflexivity.
Qed.

(** ** Notification *)

(** Any larger amount of fuel gives the loop of [notify] the same run. *)
Lemma notify_loop_fuel st fuel :
  (List.length (_subscribers (publisher st)) < fuel)%nat ->
  notify_loop fuel 0 st =
  notify_loop (S (List.length (_subscribers (publisher st)))) 0 st.
Proof.
  intros H. rewrite !notify_loop_run by (simpl; lia). reflexivity.
Qed.


(** ** Registration and removal *)

(** C6. [add_subscriber] appends the subscriber to the end of the sequence,
    whether or not it is already there; after [k] additions of the same
    subscriber a [notify] calls its [update] [k] more times than before, so
    [k] times on a new publisher. *)
Theorem add_subscriber_appends st s k :
  outcome (add_subscriber s st) = Normal tt /\
  _subscribers (publisher (final (add_subscriber s st))) =
    _subscribers (publisher st) ++ [s] /\
  count_occ Subscriber_eq_dec
    (updates (events (notify (final (add_subscribers (repeat s k) st))))) s =
    (count_occ Subscriber_eq_dec (_subscribers (publisher st)) s + k)%nat /\
  count_occ Subscriber_eq_dec
    (updates
       (events
          (notify
             (final (bind __init__
                          (fun _ => add_subscribers (repeat s k)) st))))) s =
    k.
Proof.
  rewrite add_subscriber_run. repeat split.
  - rewrite notify_run, add_subscribers_run. cbn [events updates final publisher
      _subscribers _new_products]. rewrite updates_sweep, count_occ_app.
    now rewrite count_occ_repeat_eq.
  - rewrite (bind_Normal _ _ _ _ _ _ eq_refl), notify_run, add_subscribers_run.
    cbn [events updates final publisher _subscribers _new_products app].
    rewrite updates_sweep. now rewrite count_occ_repeat_eq.
Qed.

(** C3. Removing a subscriber that is not in the sequence raises the
    [ValueError] of [list.remove] and leaves the sequence as it was, so a
    following [notify] runs as it would have before; in particular, removing
    a subscriber that was registered once a second time raises on the second
    call and leaves the sequence of the first removal in place. *)
Theorem remove_absent_subscriber_raises st s :
  (~ In s (_subscribers (publisher st)) ->
   outcome (remove_subscriber s st) =
     Raised (ValueError "list.remove(x): x not in list") /\
   _subscribers (publisher (final (remove_subscriber s st))) =
     _subscribers (publisher st) /\
   notify (final (remove_subscriber s st)) = notify st) /\
  (count_occ Subscriber_eq_dec (_subscribers (publisher st)) s = 1%nat ->
   let r1 := remove_subscriber s st in
   let r2 := remove_subscriber s (final r1) in
   outcome r1 = Normal tt /\
   outcome r2 = Raised (ValueError "list.remove(x): x not in list") /\
   _subscribers (publisher (final r2)) = _subscribers (publisher (final r1)) /\
   notify (final r2) = notify (final r1)).
Proof.
  split.
  - intros H. rewrite (remove_subscriber_absent _ _ H). repeat split.
  - intros H.
    assert (Hin : In s (_subscribers (publisher st))).
    { apply (count_occ_In Subscriber_eq_dec). lia. }
    destruct (list_remove_In _ _ Hin) as [l' Hl'].
    pose proof (list_remove_count _ _ _ s Hl') as Hc.
    destruct (Subscriber_eq_dec s s) as [_|Hne]; [|congruence].
    assert (Hnin : ~ In s l').
    { apply (count_occ_not_In Subscriber_eq_dec). lia. }
    cbv zeta. rewrite (remove_subscriber_present _ _ _ Hl').
    cbn [outcome final]. rewrite remove_subscriber_absent by exact Hnin.
    repeat split.
Qed.

(** C5. Removing a subscriber that is in the sequence once succeeds, and a
    following [notify] does not call its [update]. The removal takes out the
    first matching entry only: a subscriber that was registered more than
    once is still notified after one removal. *)
Theorem removed_subscriber_not_notified st s :
  (count_occ Subscriber_eq_dec (_subscribers (publisher st)) s = 1%nat ->
   outcome (remove_subscriber s st) = Normal tt /\
   ~ In s (updates (events (notify (final (remove_subscriber s st)))))) /\
  (In s (_subscribers (publisher st)) ->
   exists l1 l2,
     _subscribers (publisher st) = l1 ++ s :: l2 /\ ~ In s l1 /\
     _subscribers (publisher (final (remove_subscriber s st))) = l1 ++ l2) /\
  ((1 < count_occ Subscriber_eq_dec (_subscribers (publisher st)) s)%nat ->
   outcome (remove_subscriber s st) = Normal tt /\
   In s (updates (events (notify (final (remove_subscriber s st)))))).
Proof.
  assert (Hcase : forall n,
    (0 < n)%nat ->
    count_occ Subscriber_eq_dec (_subscribers (publisher st)) s = n ->
    exists l', list_remove s (_subscribers (publisher st)) = Some l' /\
               count_occ Subscriber_eq_dec l' s = (n - 1)%nat).
  { intros n Hn Hc.
    assert (Hin : In s (_subscribers (publisher st))).
    { apply (count_occ_In Subscriber_eq_dec). lia. }
    destruct (list_remove_In _ _ Hin) as [l' Hl']. exists l'. split; trivial.
    pose proof (list_remove_count _ _ _ s Hl') as Hc'.
    destruct (Subscriber_eq_dec s s) as [_|Hne]; [lia | congruence]. }
  split; [|split].
  - intros H1. destruct (Hcase 1%nat) as (l' & Hl' & Hc); [lia | exact H1 |].
    rewrite (remove_subscriber_present _ _ _ Hl'), notify_run.
    cbn [outcome events updates final publisher _subscribers].
    rewrite updates_sweep. split; [reflexivity|].
    apply (count_occ_not_In Subscriber_eq_dec). exact Hc.
  - intros Hin. destruct (list_remove_In _ _ Hin) as [l' Hl'].
    rewrite (remove_subscriber_present _ _ _ Hl').
    cbn [final publisher _subscribers].
    apply list_remove_Some in Hl'. destruct Hl' as (l1 & l2 & H1 & H2 & H3).
    exists l1, l2. auto.
  - intros Hm.
    destruct (Hcase _ (Nat.lt_trans _ _ _ Nat.lt_0_1 Hm) eq_refl)
      as (l' & Hl' & Hc).
    rewrite (remove_subscriber_present _ _ _ Hl'), notify_run.
    cbn [outcome events updates final publisher _subscribers].
    rewrite updates_sweep. split; [reflexivity|].
    apply (count_occ_In Subscriber_eq_dec). lia.
Qed.

Section WithRandomSource.

Context {RS : RandomSource G}.

Lemma randrange_0_10 st :
  randrange 0 10 st =
  mkRun (Normal (fst (randbelow 10 (random st))))
        (mkState (publisher st) (snd (randbelow 10 (random st)))) [].
Proof.
  unfold randrange. change (10 - 0) with 10. change (0 <? 10) with true.
  cbv iota. destruct (randbelow 10 (random st)) as [r g]. reflexivity.
Qed.

Lemma business_logic_run st :
  business_logic st =
  let n := fst (randbelow 10 (random st)) in
  mkRun (Normal tt)
        (mkState (mkConcretePublisher (_subscribers (publisher st)) n)
                 (snd (randbelow 10 (random st))))
        (Print (String (ascii_of_nat 10)
                  "Publisher: Checking Inventory for new products!")
         :: Print ("Publisher: My new products count has just changed to: "
                     ++ str n)%string
         :: CallNotify
         :: sweep (_subscribers (publisher st)) n).
Proof.
  unfold business_logic.
  rewrite (bind_Normal _ _ _ _ _ _ eq_refl).
  rewrite (bind_Normal _ _ _ _ _ _ (randrange_0_10 st)).
  rewrite (bind_Normal _ _ _ _ _ _ eq_refl).
  rewrite (bind_Normal _ _ _ _ _ _ eq_refl).
  rewrite (bind_Normal _ _ _ _ _ _ eq_refl).
  rewrite notify_run. reflexivity.
Qed.

Lemma business_logic_returns st : outcome (business_logic st) = Normal tt.
Proof. now rewrite business_logic_run. Qed.

(** ** State changes *)

(** C4. Whatever the generator draws, [business_logic] returns with the
    count set to the drawn integer, which lies in [[0, 10)], and then, after
    its two trace lines, makes the one [notify] call, in the state that
    already holds the new count: its events are the two prints followed by
    those of [notify] there, so the subscribers are called in order and
    react to the new count. This is so also when the drawn value equals the
    previous count. *)
Theorem business_logic_draws_and_notifies_once st :
  let r := business_logic st in
  let n := fst (randbelow 10 (random st)) in
  outcome r = Normal tt /\
  _new_products (publisher (final r)) = fst (randbelow 10 (random st)) /\
  0 <= _new_products (publisher (final r)) < 10 /\
  notifications (events r) = 1%nat /\
  final r =
    mkState (mkConcretePublisher (_subscribers (publisher st)) n)
            (snd (randbelow 10 (random st))) /\
  events r =
    [Print (String (ascii_of_nat 10)
              "Publisher: Checking Inventory for new products!");
     Print ("Publisher: My new products count has just changed to: "
              ++ str n)%string]
    ++ events
         (notify
            (mkState (mkConcretePublisher (_subscribers (publisher st)) n)
                     (snd (randbelow 10 (random st))))) /\
  updates (events r) = _subscribers (publisher st) /\
  (_new_products (publisher (final r)) = _new_products (publisher st) ->
   notifications (events r) = 1%nat).
Proof.
  cbv zeta. rewrite business_logic_run.
  cbn [outcome final events publisher _new_products].
  assert (Hn : forall l n c1 c2,
             notifications (Print c1 :: Print c2 :: CallNotify :: sweep l n)
             = 1%nat).
  { intros l n c1 c2.
    change (S (notifications (sweep l n)) = 1%nat).
    now rewrite notifications_sweep. }
  split; [reflexivity|]. split; [reflexivity|].
  split; [apply randbelow_range; lia|].
  split; [apply Hn|].
  split; [reflexivity|].
  split; [now rewrite notify_run|].
  split; [cbn [updates]; apply updates_sweep|].
  intros _. apply Hn.
Qed.

(** C8. A new [ConcretePublisher] has no subscribers and count 0;
    [add_subscriber], [remove_subscriber] and [notify] leave the count as it
    was, and [business_logic] leaves the subscriber sequence as it was. *)
Theorem publisher_frame st s :
  publisher (final (__init__ st)) = mkConcretePublisher [] 0 /\
  _new_products (publisher (final (add_subscriber s st))) =
    _new_products (publisher st) /\
  _new_products (publisher (final (remove_subscriber s st))) =
    _new_products (publisher st) /\
  _new_products (publisher (final (notify st))) =
    _new_products (publisher st) /\
  _subscribers (publisher (final (business_logic st))) =
    _subscribers (publisher st).
Proof.
  rewrite add_subscriber_run, notify_run, business_logic_run.
  repeat split.
  destruct (in_dec Subscriber_eq_dec s (_subscribers (publisher st)))
    as [Hin|Hnin].
  - destruct (list_remove_In _ _ Hin) as [l' Hl'].
    now rewrite (remove_subscriber_present _ _ _ Hl').
  - now rewrite (remove_subscriber_absent _ _ Hnin).
Qed.

(** ** The client code *)

Lemma bind_assoc {A B C} (m : Py G A) (k : A -> Py G B) (h : B -> Py G C) st :
  bind (bind m k) h st = bind m (fun a => bind (k a) h) st.
Proof.
  unfold bind. destruct (m st) as [[a|e|] st1 ev1]; cbn [outcome final events];
    [|reflexivity|reflexivity].
  destruct (k a st1) as [[b|e|] st2 ev2]; cbn [outcome final events];
    rewrite ?app_assoc; reflexivity.
Qed.

Lemma bind_ext {A B} (m : Py G A) (k k' : A -> Py G B) st :
  (forall a st', k a st' = k' a st') -> bind m k st = bind m k' st.
Proof.
  intros H. unfold bind. destruct (outcome (m st)); [|reflexivity|reflexivity].
  now rewrite H.
Qed.

Lemma main_split st :
  main st =
  bind main_until_removal
       (fun _ => bind business_logic (fun _ => business_logic)) st.
Proof.
  unfold main, main_until_removal.
  repeat (rewrite bind_assoc; apply bind_ext; intros _ ?).
  reflexivity.
Qed.

Lemma main_until_removal_run st :
  exists n g evs,
    main_until_removal st =
    mkRun (Normal tt) (mkState (mkConcretePublisher [sub_b] n) g) evs /\
    updates evs = [sub_a; sub_b; sub_a; sub_b; sub_a; sub_b].
Proof.
  unfold main_until_removal.
  rewrite (bind_Normal _ _ _ _ _ _ eq_refl).
  rewrite (bind_Normal _ _ _ _ _ _ (add_subscriber_run _ _)).
  rewrite (bind_Normal _ _ _ _ _ _ (add_subscriber_run _ _)).
  cbn [publisher random _subscribers _new_products app].
  rewrite (bind_Normal _ _ _ _ _ _ (business_logic_run _)).
  rewrite (bind_Normal _ _ _ _ _ _ (business_logic_run _)).
  rewrite (bind_Normal _ _ _ _ _ _ (business_logic_run _)).
  cbn [publisher random _subscribers _new_products].
  rewrite (remove_subscriber_present _ _ [sub_b]) by reflexivity.
  cbn [outcome final events publisher random _subscribers _new_products].
  do 3 eexists. split; [reflexivity|].
  cbn [updates]. rewrite !updates_app. cbn [updates]. rewrite !updates_sweep.
  reflexivity.
Qed.

(** On a publisher whose only subscriber is [sub_b], the action line is
    among the lines of a [business_logic] call exactly when the new count is
    above 2. *)
Lemma business_logic_only_sub_b st :
  _subscribers (publisher st) = [sub_b] ->
  let r := business_logic st in
  updates (events r) = [sub_b] /\
  _subscribers (publisher (final r)) = [sub_b] /\
  (In action_line (stdout (events r)) <->
   _new_products (publisher (final r)) > 2).
Proof.
  intros Hs. cbv zeta. rewrite business_logic_run, Hs.
  cbn [outcome final events publisher _subscribers _new_products updates
       stdout sweep flat_map sub_b reaction app].
  rewrite app_nil_r.
  destruct (Z.gtb_spec (fst (randbelow 10 (random st))) 2) as [Hgt|Hle];
    cbn [updates stdout]; (split; [reflexivity|]); (split; [reflexivity|]).
  - split; [lia|]. intros _. right. right. left. reflexivity.
  - split; [|lia]. intros [H|[H|[]]]; discriminate H.
Qed.

(** C10. The client removes SubscriberA, not SubscriberB, after its first
    three [business_logic] calls, in which both were notified; in each of the
    two calls that follow only SubscriberB is notified, and the action line
    is written exactly when the drawn count is above 2. *)
Theorem driver_final_rounds_notify_only_subscriberB st :
  let r3 := main_until_removal st in
  let r4 := business_logic (final r3) in
  let r5 := business_logic (final r4) in
  main st =
    mkRun (Normal tt) (final r5) (events r3 ++ events r4 ++ events r5) /\
  outcome r3 = Normal tt /\
  updates (events r3) = [sub_a; sub_b; sub_a; sub_b; sub_a; sub_b] /\
  _subscribers (publisher (final r3)) = [sub_b] /\
  updates (events r4) = [sub_b] /\
  updates (events r5) = [sub_b] /\
  _new_products (publisher (final r4)) =
    fst (randbelow 10 (random (final r3))) /\
  _new_products (publisher (final r5)) =
    fst (randbelow 10 (random (final r4))) /\
  (In action_line (stdout (events r4)) <->
   _new_products (publisher (final r4)) > 2) /\
  (In action_line (stdout (events r5)) <->
   _new_products (publisher (final r5)) > 2).
Proof.
  cbv zeta. rewrite main_split.
  destruct (main_until_removal_run st) as (n & g & evs & Hr & Hu).
  rewrite (bind_Normal _ _ _ _ _ _ Hr), Hr.
  cbn [outcome final events].
  set (st3 := mkState (mkConcretePublisher [sub_b] n) g).
  destruct (business_logic_only_sub_b st3 eq_refl) as (Hu4 & Hs4 & Ha4).
  destruct (business_logic_only_sub_b _ Hs4) as (Hu5 & _ & Ha5).
  repeat split; trivial; try apply Ha4; try apply Ha5.
  - rewrite (bind_returns _ _ _ _ (business_logic_returns st3)).
    cbn [outcome final events]. now rewrite business_logic_returns.
  - now rewrite business_logic_run.
  - now rewrite business_logic_run.
Qed.

End WithRandomSource.

End Properties.

(** * The theorems at concrete states *)

(** Both subscribers registered, count 1: both are called, only SubscriberA
    acts. *)
Example notify_count_1 :
  events (notify (sample [sub_a; sub_b] 1 0)) =
  [CallNotify; CallUpdate sub_a; Print "SubscriberA: Action Taken";
   CallUpdate sub_b].
Proof. reflexivity. Qed.

(** The client code with the generator [lcg] at seed 42 draws 2, 7, 4, 3
    and 6. *)
Example main_seed_42 :
  outcome (main (sample [] 0 42)) = Normal tt /\
  publisher (final (main (sample [] 0 42))) =
    mkConcretePublisher [sub_b] 6 /\
  updates (events (main (sample [] 0 42))) =
    [sub_a; sub_b; sub_a; sub_b; sub_a; sub_b; sub_b; sub_b] /\
  stdout (events (business_logic (sample [sub_b] 0 42))) =
    [String (ascii_of_nat 10)
       "Publisher: Checking Inventory for new products!";
     "Publisher: My new products count has just changed to: 2"]%string.
Proof. repeat split. Qed.

(** With count 5 both subscribers act. *)
Lemma subscriber_actions_fire_on_thresholds_witness :
  action_taken (SubscriberB 2) (sample [] 5 0) = true /\
  action_taken (SubscriberA 1) (sample [] 5 0) = true.
Proof.
  split; [reflexivity|].
  apply (proj2 (proj2
           (subscriber_actions_fire_on_thresholds (sample [] 5 0) 1 2))).
  reflexivity.
Defined.

(** With count 5 SubscriberB writes SubscriberA's line. *)
Lemma subscriberB_prints_subscriberA_line_witness :
  action_taken (SubscriberB 2) (sample [] 5 0) = true /\
  stdout (events (update (SubscriberB 2) (sample [] 5 0))) =
    ["SubscriberA: Action Taken"%string] /\
  stdout (events (update (SubscriberB 2) (sample [] 5 0))) =
    stdout (events (update (SubscriberA 1) (sample [] 5 0))).
Proof.
  split; [reflexivity|].
  apply (subscriberB_prints_subscriberA_line (sample [] 5 0) 1 2).
  reflexivity.
Defined.

(** Removing [sub_a] from a publisher that only has [sub_b], and removing it
    twice from one that has both. *)
Lemma remove_absent_subscriber_raises_witness :
  (~ In sub_a [sub_b] /\
   notify (final (remove_subscriber sub_a (sample [sub_b] 5 0))) =
     notify (sample [sub_b] 5 0)) /\
  (count_occ Subscriber_eq_dec [sub_a; sub_b] sub_a = 1%nat /\
   outcome
     (remove_subscriber sub_a
        (final (remove_subscriber sub_a (sample [sub_a; sub_b] 5 0)))) =
     Raised (ValueError "list.remove(x): x not in list")).
Proof.
  assert (Hnin : ~ In sub_a [sub_b]).
  { intros [H|[]]. discriminate H. }
  split.
  - split; [exact Hnin|].
    apply (proj1 (remove_absent_subscriber_raises (sample [sub_b] 5 0) sub_a)).
    exact Hnin.
  - split; [reflexivity|].
    apply (proj2 (remove_absent_subscriber_raises
                    (sample [sub_a; sub_b] 5 0) sub_a)).
    reflexivity.
Defined.

(** A subscriber registered once is gone after its removal; one registered
    twice is still notified. *)
Lemma removed_subscriber_not_notified_witness :
  (count_occ Subscriber_eq_dec [sub_a; sub_b] sub_a = 1%nat /\
   ~ In sub_a
       (updates
          (events
             (notify
                (final (remove_subscriber sub_a
                          (sample [sub_a; sub_b] 5 0))))))) /\
  (1 < count_occ Subscriber_eq_dec [sub_a; sub_b; sub_a] sub_a /\
   In sub_a
      (updates
         (events
            (notify
               (final (remove_subscriber sub_a
                         (sample [sub_a; sub_b; sub_a] 5 0)))))))%nat.
Proof.
  split.
  - split; [reflexivity|].
    apply (proj1 (removed_subscriber_not_notified
                    (sample [sub_a; sub_b] 5 0) sub_a)).
    reflexivity.
  - split; [simpl; lia|].
    apply (proj2 (proj2 (removed_subscriber_not_notified
                           (sample [sub_a; sub_b; sub_a] 5 0) sub_a))).
    simpl. lia.
Defined.

(** From count 0 and seed 0 the generator [lcg] draws 0 again, and [notify]
    is still called once. *)
Lemma business_logic_draws_and_notifies_once_witness :
  _new_products (publisher (final (business_logic (sample [sub_a] 0 0)))) =
    _new_products (publisher (sample [sub_a] 0 0)) /\
  notifications (events (business_logic (sample [sub_a] 0 0))) = 1%nat.
Proof.
  split; [reflexivity|].
  apply (business_logic_draws_and_notifies_once (sample [sub_a] 0 0)).
  reflexivity.
Defined.

(** * Further properties of the publisher and the client code *)

Section Composition.

Context {G : Type} {RS : RandomSource G}.

Implicit Types (st : State G) (s : Subscriber) (l : list Subscriber).

Lemma state_eta st :
  mkState (mkConcretePublisher (_subscribers (publisher st))
                               (_new_products (publisher st)))
          (random st) = st.
Proof. now destruct st as [[? ?] ?]. Qed.

Lemma list_remove_app_first s l1 l2 :
  ~ In s l1 -> list_remove s (l1 ++ s :: l2) = Some (l1 ++ l2).
Proof.
  intros H. apply list_remove_Some. exists l1, l2. auto.
Qed.

Lemma bind_same_run {A B} (m : Py G A) (k : A -> Py G B) st st' :
  m st' = m st -> bind m k st' = bind m k st.
Proof. intros H. unfold bind. now rewrite H. Qed.

(** X1. [add_subscriber] and [remove_subscriber] write their one trace line
    and nothing else, and call no [update]: a subscriber is not told the
    current count when it is added, and the removal line is written even
    when the removal then raises. *)
Theorem registration_is_silent st s :
  events (add_subscriber s st) = [Print "Publisher: Adding subscriber !"] /\
  events (remove_subscriber s st) =
    [Print "Publisher: Removing subscriber !"].
Proof.
  split; [reflexivity|].
  destruct (in_dec Subscriber_eq_dec s (_subscribers (publisher st)))
    as [Hin|Hnin].
  - destruct (list_remove_In _ _ Hin) as [l' Hl'].
    now rewrite (remove_subscriber_present _ _ _ Hl').
  - now rewrite (remove_subscriber_absent _ _ Hnin).
Qed.

(** X2. Adding a subscriber that is not registered and removing it again
    succeeds and gives back the state there was. *)
Theorem add_then_remove_restores st s :
  ~ In s (_subscribers (publisher st)) ->
  outcome (bind (add_subscriber s) (fun _ => remove_subscriber s) st) =
    Normal tt /\
  final (bind (add_subscriber s) (fun _ => remove_subscriber s) st) = st.
Proof.
  intros Hnin.
  rewrite (bind_Normal _ _ _ _ _ _ (add_subscriber_run s st)).
  rewrite (remove_subscriber_present _ _ (_subscribers (publisher st))).
  - cbn [outcome final publisher random _new_products]. split; [reflexivity|].
    apply state_eta.
  - cbn [publisher _subscribers].
    rewrite <- (app_nil_r (_subscribers (publisher st))) at 2.
    now apply list_remove_app_first.
Qed.

(** X3. For a subscriber that is registered, adding it and then removing it
    does the same as removing it and then adding it: its first entry goes
    and a new one is at the end, so it is notified after the others. *)
Theorem reregistration_moves_to_end st s l1 l2 :
  _subscribers (publisher st) = l1 ++ s :: l2 ->
  ~ In s l1 ->
  let ar := bind (add_subscriber s) (fun _ => remove_subscriber s) st in
  let ra := bind (remove_subscriber s) (fun _ => add_subscriber s) st in
  outcome ar = Normal tt /\
  outcome ra = Normal tt /\
  _subscribers (publisher (final ar)) = l1 ++ l2 ++ [s] /\
  final ra = final ar.
Proof.
  intros Hl Hnin. cbv zeta.
  rewrite (bind_Normal _ _ _ _ _ _ (add_subscriber_run s st)).
  rewrite (remove_subscriber_present _ _ (l1 ++ l2 ++ [s])).
  2:{ cbn [publisher _subscribers]. rewrite Hl, <- app_assoc. simpl.
      now apply list_remove_app_first. }
  rewrite (bind_Normal _ _ _ _ _ _
             (remove_subscriber_present s st (l1 ++ l2)
                ltac:(rewrite Hl; now apply list_remove_app_first))).
  rewrite add_subscriber_run.
  cbn [outcome final publisher random _subscribers _new_products].
  rewrite <- app_assoc. repeat split.
Qed.

(** X4. [notify] leaves the whole state, generator included, as it was, so
    a second [notify] right after the first makes the same calls and writes
    the same lines again. *)
Theorem notify_is_repeatable st :
  final (notify st) = st /\
  events (bind notify (fun _ => notify) st) =
    events (notify st) ++ events (notify st).
Proof.
  split; [now rewrite notify_run|].
  rewrite (bind_Normal _ _ _ _ _ _ (notify_run st)).
  cbn [events]. now rewrite notify_run.
Qed.

Lemma stdout_sweep l n :
  stdout (sweep l n) =
  repeat action_line
    (List.length
       (filter (fun s => match reaction s n with [] => false | _ => true end)
               l)).
Proof.
  unfold sweep. induction l as [|s l IH]; [reflexivity|].
  cbn [flat_map filter app stdout].
  assert (Hr : forall e1 e2, stdout (e1 ++ e2) = stdout e1 ++ stdout e2).
  { intros e1 e2. induction e1 as [|[line|x|] e1 IH1]; simpl;
      rewrite ?IH1; reflexivity. }
  rewrite Hr, IH.
  destruct s as [i|i]; cbn [reaction];
    [destruct (n >? 0) | destruct (n >? 2)]; reflexivity.
Qed.

(** X5. [notify] writes the action line once for every registered
    subscriber whose action fires and nothing else: nothing when the count
    is 0 or less, one line per entry of the sequence when it is above 2. *)
Theorem notify_writes_one_line_per_action st :
  stdout (events (notify st)) =
    repeat action_line
      (List.length (filter (fun s => action_taken s st)
                           (_subscribers (publisher st)))) /\
  (_new_products (publisher st) <= 0 -> stdout (events (notify st)) = []) /\
  (_new_products (publisher st) > 2 ->
   stdout (events (notify st)) =
     repeat action_line (List.length (_subscribers (publisher st)))).
Proof.
  rewrite notify_run. cbn [events stdout]. rewrite stdout_sweep.
  assert (Hf : forall l,
    filter (fun s => action_taken s st) l =
    filter (fun s => match reaction s (_new_products (publisher st)) with
                     | [] => false | _ => true end) l).
  { intros l. apply filter_ext. intros s. unfold action_taken.
    rewrite update_run. cbn [events stdout].
    destruct s as [i|i]; cbn [reaction];
      [destruct (_new_products (publisher st) >? 0)
      |destruct (_new_products (publisher st) >? 2)]; reflexivity. }
  rewrite Hf. split; [reflexivity|]. split; intros Hn.
  - replace (filter _ (_subscribers (publisher st))) with (@nil Subscriber);
      [reflexivity|].
    induction (_subscribers (publisher st)) as [|s l IH]; [reflexivity|].
    cbn [filter]. rewrite <- IH.
    destruct s as [i|i]; cbn [reaction];
      [destruct (Z.gtb_spec (_new_products (publisher st)) 0)
      |destruct (Z.gtb_spec (_new_products (publisher st)) 2)];
      first [lia | reflexivity].
  - replace (filter _ (_subscribers (publisher st)))
      with (_subscribers (publisher st)); [reflexivity|].
    induction (_subscribers (publisher st)) as [|s l IH]; [reflexivity|].
    cbn [filter]. rewrite <- IH.
    destruct s as [i|i]; cbn [reaction];
      [destruct (Z.gtb_spec (_new_products (publisher st)) 0)
      |destruct (Z.gtb_spec (_new_products (publisher st)) 2)];
      first [lia | reflexivity].
Qed.

(** X6. [business_logic] writes its two lines and then notifies in the state
    that already holds the new count: the subscribers react to the count
    that was just printed, and the count there was before plays no part in
    the run. *)
Theorem business_logic_notifies_new_count st :
  events (business_logic st) =
    [Print (String (ascii_of_nat 10)
              "Publisher: Checking Inventory for new products!");
     Print ("Publisher: My new products count has just changed to: "
              ++ str (_new_products (publisher (final (business_logic st)))))
           %string]
    ++ events (notify (final (business_logic st))) /\
  (forall st',
     _subscribers (publisher st') = _subscribers (publisher st) ->
     random st' = random st ->
     business_logic st' = business_logic st).
Proof.
  split.
  - rewrite business_logic_run. cbn [events final]. now rewrite notify_run.
  - intros st' Hs Hg. rewrite !business_logic_run, Hs, Hg. reflexivity.
Qed.

(** X7. Whatever methods a client calls on a new publisher, in whatever
    order, the count stays in [[0, 10)]. *)
Theorem reachable_count_in_range st :
  reachable st -> 0 <= _new_products (publisher st) < 10.
Proof.
  induction 1 as [st|st s _ IH|st s _ IH|st _ IH|st _ IH].
  - cbn. lia.
  - now rewrite add_subscriber_run.
  - destruct (in_dec Subscriber_eq_dec s (_subscribers (publisher st)))
      as [Hin|Hnin].
    + destruct (list_remove_In _ _ Hin) as [l' Hl'].
      now rewrite (remove_subscriber_present _ _ _ Hl').
    + now rewrite (remove_subscriber_absent _ _ Hnin).
  - now rewrite notify_run.
  - rewrite business_logic_run. cbn [final publisher _new_products].
    apply randbelow_range. lia.
Qed.

(** X8. Only [business_logic] draws from the random generator, and it draws
    once: the other methods and [update] leave the generator as it was. *)
Theorem only_business_logic_draws st s :
  random (final (__init__ st)) = random st /\
  random (final (add_subscriber s st)) = random st /\
  random (final (remove_subscriber s st)) = random st /\
  random (final (notify st)) = random st /\
  random (final (update s st)) = random st /\
  random (final (business_logic st)) = snd (randbelow 10 (random st)).
Proof.
  rewrite add_subscriber_run, notify_run, update_run, business_logic_run.
  repeat split.
  destruct (in_dec Subscriber_eq_dec s (_subscribers (publisher st)))
    as [Hin|Hnin].
  - destruct (list_remove_In _ _ Hin) as [l' Hl'].
    now rewrite (remove_subscriber_present _ _ _ Hl').
  - now rewrite (remove_subscriber_absent _ _ Hnin).
Qed.

Lemma notifications_business_logic st :
  notifications (events (business_logic st)) = 1%nat.
Proof.
  rewrite business_logic_run. cbn [events].
  change (S (notifications
               (sweep (_subscribers (publisher st))
                      (fst (randbelow 10 (random st))))) = 1%nat).
  now rewrite notifications_sweep.
Qed.

Lemma notifications_bind {A B} (m : Py G A) (k : A -> Py G B) st a :
  outcome (m st) = Normal a ->
  notifications (events (bind m k st)) =
  (notifications (events (m st)) +
   notifications (events (k a (final (m st)))))%nat.
Proof.
  intros H. rewrite (bind_returns _ _ _ _ H). cbn [events].
  apply notifications_app.
Qed.

Lemma main_until_removal_notifications st :
  notifications (events (main_until_removal st)) = 3%nat.
Proof.
  unfold main_until_removal.
  do 3 rewrite notifications_bind with (a := tt) by reflexivity.
  do 3 rewrite notifications_bind with (a := tt)
    by apply business_logic_returns.
  rewrite !notifications_business_logic.
  match goal with
  | |- context [remove_subscriber sub_a ?st'] =>
      rewrite (proj2 (registration_is_silent st' sub_a))
  end.
  reflexivity.
Qed.

(** X9. For every seed of the generator the client code ends without an
    error, having called [notify] five times and [update] eight times, with
    [sub_b] as the only subscriber left and a count in [[0, 10)]; what the
    publisher held before the script constructs it makes no difference. *)
Theorem main_summary st :
  outcome (main st) = Normal tt /\
  notifications (events (main st)) = 5%nat /\
  updates (events (main st)) =
    [sub_a; sub_b; sub_a; sub_b; sub_a; sub_b; sub_b; sub_b] /\
  _subscribers (publisher (final (main st))) = [sub_b] /\
  0 <= _new_products (publisher (final (main st))) < 10 /\
  (forall st', random st' = random st -> main st' = main st).
Proof.
  pose proof (main_until_removal_notifications st) as Hn.
  destruct (main_until_removal_run st) as (n & g & evs & Hr & Hu).
  rewrite Hr in Hn. cbn [events] in Hn.
  set (st3 := mkState (mkConcretePublisher [sub_b] n) g) in *.
  set (st4 := final (business_logic st3)).
  assert (Hm : main st =
               mkRun (outcome (business_logic st4))
                     (final (business_logic st4))
                     (evs ++ events (business_logic st3)
                          ++ events (business_logic st4))).
  { rewrite main_split, (bind_Normal _ _ _ _ _ _ Hr).
    now rewrite (bind_returns _ _ _ _ (business_logic_returns st3)). }
  destruct (business_logic_only_sub_b st3 eq_refl) as (Hu4 & Hs4 & _).
  destruct (business_logic_only_sub_b st4 Hs4) as (Hu5 & Hs5 & _).
  split; [rewrite Hm; apply business_logic_returns|].
  split.
  { rewrite Hm. cbn [events].
    rewrite !notifications_app, !notifications_business_logic, Hn.
    reflexivity. }
  split.
  { rewrite Hm. cbn [events].
    rewrite !updates_app, Hu, Hu4, Hu5. reflexivity. }
  split; [rewrite Hm; exact Hs5|].
  split.
  { rewrite Hm, business_logic_run. cbn [final publisher _new_products].
    apply randbelow_range. lia. }
  intros st' Hg. unfold main. apply bind_same_run.
  unfold __init__. now rewrite Hg.
Qed.

(** X10. A larger count never silences a subscriber: if its action fires at
    one count, it fires at every count that is not smaller. *)
Theorem action_is_monotone_in_count st st' s :
  _new_products (publisher st) <= _new_products (publisher st') ->
  action_taken s st = true ->
  action_taken s st' = true.
Proof.
  unfold action_taken. rewrite !update_run. cbn [events stdout].
  intros Hle.
  destruct s as [i|i]; cbn [reaction];
    [destruct (Z.gtb_spec (_new_products (publisher st)) 0);
     destruct (Z.gtb_spec (_new_products (publisher st')) 0)
    |destruct (Z.gtb_spec (_new_products (publisher st)) 2);
     destruct (Z.gtb_spec (_new_products (publisher st')) 2)];
    cbn [stdout]; intros Hact; first [reflexivity | lia | discriminate Hact].
Qed.

(** X11. The text [business_logic] puts on standard output is an empty
    line, the line "Publisher: Checking Inventory for new products!", the
    count line, which is its fixed prefix followed by exactly one decimal
    digit, the digit of the new count, and then what [notify] writes. *)
Theorem count_line_has_one_digit st :
  exists d : ascii,
    (48 <= nat_of_ascii d <= 57)%nat /\
    Z.of_nat (nat_of_ascii d) =
      48 + _new_products (publisher (final (business_logic st))) /\
    printed (events (business_logic st)) =
      String (ascii_of_nat 10)
        ("Publisher: Checking Inventory for new products!"
           ++ String (ascii_of_nat 10)
                ("Publisher: My new products count has just changed to: "
                   ++ String d
                        (String (ascii_of_nat 10)
                           (printed
                              (events
                                 (notify (final (business_logic st))))))))
      %string.
Proof.
  rewrite business_logic_run.
  cbn [final publisher _new_products events printed].
  rewrite notify_run. cbn [events printed publisher _subscribers _new_products].
  pose proof (randbelow_range 10 (random st) ltac:(lia)) as Hn.
  remember (fst (randbelow 10 (random st))) as n eqn:En. clear En.
  assert (Hk : exists k, (k < 10)%nat /\ n = Z.of_nat k)
    by (exists (Z.to_nat n); lia).
  destruct Hk as (k & Hk & ->). clear Hn.
  exists (ascii_of_nat (48 + k)).
  do 10 (destruct k as [|k];
         [split; [vm_compute; lia | split; reflexivity]|]).
  lia.
Qed.

End Composition.

(** * The further properties at concrete states *)

(** From count 9 the generator [lcg] at seed 0 draws 0: both subscribers are
    called and neither acts, as the new count is the one they see. *)
Example business_logic_from_count_9 :
  events (business_logic (sample [sub_a; sub_b] 9 0)) =
  [Print (String (ascii_of_nat 10)
            "Publisher: Checking Inventory for new products!");
   Print "Publisher: My new products count has just changed to: 0";
   CallNotify; CallUpdate sub_a; CallUpdate sub_b].
Proof. reflexivity. Qed.

(** [sub_a] added to a publisher that has [sub_b] and removed again. *)
Lemma add_then_remove_restores_witness :
  ~ In sub_a [sub_b] /\
  final (bind (add_subscriber sub_a) (fun _ => remove_subscriber sub_a)
              (sample [sub_b] 5 0)) = sample [sub_b] 5 0.
Proof.
  assert (Hnin : ~ In sub_a [sub_b]).
  { intros [H|[]]. discriminate H. }
  split; [exact Hnin|].
  apply (add_then_remove_restores (sample [sub_b] 5 0) sub_a). exact Hnin.
Defined.

(** [sub_a], first of two subscribers, is last after it is added and
    removed. *)
Lemma reregistration_moves_to_end_witness :
  _subscribers (publisher (sample [sub_a; sub_b] 5 0)) = [] ++ sub_a :: [sub_b] /\
  ~ In sub_a [] /\
  _subscribers
    (publisher
       (final (bind (add_subscriber sub_a) (fun _ => remove_subscriber sub_a)
                    (sample [sub_a; sub_b] 5 0)))) = [sub_b; sub_a].
Proof.
  split; [reflexivity|]. split; [intros []|].
  apply (reregistration_moves_to_end
           (sample [sub_a; sub_b] 5 0) sub_a [] [sub_b] eq_refl).
  intros [].
Defined.

(** With count 0 a [notify] writes nothing; with count 5 it writes two
    lines for two subscribers. *)
Lemma notify_writes_one_line_per_action_witness :
  (_new_products (publisher (sample [sub_a; sub_b] 0 0)) <= 0 /\
   stdout (events (notify (sample [sub_a; sub_b] 0 0))) = []) /\
  (_new_products (publisher (sample [sub_a; sub_b] 5 0)) > 2 /\
   stdout (events (notify (sample [sub_a; sub_b] 5 0))) =
     [action_line; action_line]).
Proof.
  split.
  - split; [simpl; lia|].
    apply (proj1 (proj2 (notify_writes_one_line_per_action
                           (sample [sub_a; sub_b] 0 0)))).
    simpl. lia.
  - split; [simpl; lia|].
    apply (proj2 (proj2 (notify_writes_one_line_per_action
                           (sample [sub_a; sub_b] 5 0)))).
    simpl. lia.
Defined.

(** From counts 3 and 9 with the same subscribers and seed,
    [business_logic] runs the same. *)
Lemma business_logic_notifies_new_count_witness :
  _subscribers (publisher (sample [sub_a] 9 7)) =
    _subscribers (publisher (sample [sub_a] 3 7)) /\
  random (sample [sub_a] 9 7) = random (sample [sub_a] 3 7) /\
  business_logic (sample [sub_a] 9 7) = business_logic (sample [sub_a] 3 7).
Proof.
  split; [reflexivity|]. split; [reflexivity|].
  apply (proj2 (business_logic_notifies_new_count (sample [sub_a] 3 7)));
    reflexivity.
Defined.

(** A state reached by constructing the publisher, adding [sub_a] and
    calling [business_logic]. *)
Lemma reachable_count_in_range_witness :
  reachable
    (final (business_logic
              (final (add_subscriber sub_a
                        (final (__init__ (sample [sub_b] 99 42))))))) /\
  0 <= _new_products
         (publisher
            (final (business_logic
                      (final (add_subscriber sub_a
                                (final (__init__ (sample [sub_b] 99 42)))))))) < 10.
Proof.
  assert (Hr : reachable
                 (final (business_logic
                           (final (add_subscriber sub_a
                                     (final (__init__ (sample [sub_b] 99 42)))))))).
  { apply reach_business_logic, reach_add_subscriber, reach_init. }
  split; [exact Hr|].
  apply (reachable_count_in_range _ Hr).
Defined.

(** The script at seed 42, from an empty publisher and from one that holds
    [sub_a] and count 7. *)
Lemma main_summary_witness :
  random (sample [sub_a] 7 42) = random (sample [] 0 42) /\
  main (sample [sub_a] 7 42) = main (sample [] 0 42).
Proof.
  split; [reflexivity|].
  apply (main_summary (sample [] 0 42)). reflexivity.
Defined.

(** SubscriberA acts at count 1, so it acts at count 5. *)
Lemma action_is_monotone_in_count_witness :
  _new_products (publisher (sample [] 1 0)) <=
    _new_products (publisher (sample [] 5 0)) /\
  action_taken (SubscriberA 1) (sample [] 1 0) = true /\
  action_taken (SubscriberA 1) (sample [] 5 0) = true.
Proof.
  split; [simpl; lia|]. split; [reflexivity|].
  apply (action_is_monotone_in_count (sample [] 1 0) (sample [] 5 0)
                                     (SubscriberA 1)).
  - simpl. lia.
  - reflexivity.
Defined.
